(** * Polymarket whale tracker: a shallow embedding of the three trackers

    The repository holds three stand-alone scripts that watch Polymarket for
    large ("whale") trades:

    - [main.py]: a subgraph query, a threshold filter and a top-10 ranking;
    - [goldsky.py]: the same pipeline over the Goldsky subgraph, with an RPC
      fallback, a Telegram alert and a [rich] table;
    - [polymarket.py]: a REST polling loop with a process-wide [seen] set.

    Each script is embedded as it is written.  JSON values coming from the
    upstreams are a tree type whose objects are [gmap]s; Python exceptions are
    an error monad; console output and HTTP posts are recorded in a trace.

    Numbers.  Python [float]s are modelled by the canonical rationals [Qc]:
    the development is about the comparisons, the filter and the order of the
    pipeline, none of which depends on rounding.  [nan] and [inf] have no
    counterpart in the model ([float] of such a string raises here).
    Python [int]s are [Z]. *)

From Stdlib Require Import Ascii QArith Qcanon.
From stdpp Require Import gmap strings list fin_maps numbers countable pretty sorting.

Local Open Scope Z_scope.

(** ** Exceptions and the error monad *)

(** The exceptions the scripts can meet.  All of them derive from Python's
    [Exception]; [UpstreamError] stands for whatever the transports
    ([gql], [requests], [web3]) raise on a failed call.  Interrupts from
    outside ([KeyboardInterrupt], [SystemExit]) are not raised by the code
    and are not modelled. *)
Inductive exn :=
  | KeyError (key : string)
  | TypeError
  | ValueError
  | AttributeError
  | UpstreamError (msg : string).

Inductive result (A : Type) :=
  | Ok (a : A)
  | Raise (e : exn).
Arguments Ok {A} a.
Arguments Raise {A} e.

Global Instance result_ret : MRet result := λ A a, Ok a.
Global Instance result_bind : MBind result := λ A B f m,
  match m with
  | Ok a => f a
  | Raise e => Raise e
  end.


(** ** Python values *)

(** Values decoded from JSON.  Objects are dictionaries keyed by strings;
    numbers are rationals; booleans are left out, no script reads one. *)
#[warnings="-register-all"] Inductive json :=
  | JNull
  | JNum (q : Qc)
  | JStr (s : string)
  | JArr (items : list json)
  | JObj (fields : gmap string json).

(** [d[k]] *)
Definition getitem (d : json) (k : string) : result json :=
  match d with
  | JObj m =>
      match m !! k with
      | Some v => Ok v
      | None => Raise (KeyError k)
      end
  | _ => Raise TypeError
  end.

(** [d.get(k, default)] *)
Definition dict_get (d : json) (k : string) (dflt : json) : result json :=
  match d with
  | JObj m => Ok (default dflt (m !! k))
  | _ => Raise AttributeError
  end.

(** [for x in v]: the items a [for] loop visits. *)
Definition iter (v : json) : result (list json) :=
  match v with
  | JArr l => Ok l
  | JObj m => Ok (JStr <$> (map_to_list m).*1)
  | JStr s => Ok ((λ c, JStr (String c EmptyString)) <$> String.list_ascii_of_string s)
  | JNull | JNum _ => Raise TypeError
  end.

(** Truth value of a JSON value ([if v:], [if not v:]). *)
Definition truthy (v : json) : bool :=
  match v with
  | JNull => false
  | JNum q => negb (bool_decide (q = 0%Qc))
  | JStr s => negb (bool_decide (s = EmptyString))
  | JArr l => negb (bool_decide (length l = 0%nat))
  | JObj m => negb (bool_decide (m = ∅))
  end.

(** [s[:n]] on a string. *)
Definition str_take (n : nat) (s : string) : string := String.substring 0 n s.

(** [v[:n] + suffix]: only strings survive the concatenation. *)
Definition slice_then_append (n : nat) (suffix : string) (v : json) : result string :=
  match v with
  | JStr s => Ok (str_take n s +:+ suffix)
  | _ => Raise TypeError
  end.

(** *** [float] and [int] *)

Definition digit_of_ascii (c : ascii) : option Z :=
  let n := Z.of_N (N_of_ascii c) in
  if bool_decide (48 ≤ n ≤ 57) then Some (n - 48) else None.

(** Reads a run of decimal digits: the value, the number of digits read and
    the rest of the input. *)
Fixpoint read_digits (acc : Z) (count : nat) (cs : list ascii) : Z * nat * list ascii :=
  match cs with
  | c :: cs' =>
      match digit_of_ascii c with
      | Some d => read_digits (10 * acc + d) (S count) cs'
      | None => (acc, count, cs)
      end
  | [] => (acc, count, [])
  end.

Definition read_sign (cs : list ascii) : Z * list ascii :=
  match cs with
  | "-"%char :: cs' => (-1, cs')
  | "+"%char :: cs' => (1, cs')
  | _ => (1, cs)
  end.

Definition Qc_of_decimal (mantissa : Z) (frac_digits : nat) : Qc :=
  Q2Qc (mantissa # Pos.pow 10 (Pos.of_nat frac_digits)).

(** [float(s)] on plain decimal literals: an optional sign, digits, and an
    optional fractional part.  Exponents, surrounding white space, [inf] and
    [nan] are outside the model and raise. *)
Definition float_of_string (s : string) : result Qc :=
  let '(sign, cs) := read_sign (String.list_ascii_of_string s) in
  let '(ip, n_int, rest) := read_digits 0 0 cs in
  match rest with
  | [] =>
      if bool_decide (n_int = 0%nat) then Raise ValueError
      else Ok (Qc_of_Z (sign * ip))
  | "."%char :: fs =>
      let '(m, n_all, rest') := read_digits ip n_int fs in
      match rest' with
      | [] =>
          if bool_decide (n_all = 0%nat) then Raise ValueError
          else if bool_decide (n_all = n_int) then Ok (Qc_of_Z (sign * ip))
          else Ok (Qc_of_decimal (sign * m) (n_all - n_int))
      | _ => Raise ValueError
      end
  | _ => Raise ValueError
  end.

(** [float(v)] *)
Definition float (v : json) : result Qc :=
  match v with
  | JNum q => Ok q
  | JStr s => float_of_string s
  | _ => Raise TypeError
  end.

(** [int(x)] on a float: truncation toward zero. *)
Definition int_of_float (q : Qc) : Z := Z.quot (Qnum q) (Z.pos (Qden q)).

(** [int(v)]: floats truncate, strings must be plain integer literals
    (an optional sign and digits). *)
Definition int (v : json) : result Z :=
  match v with
  | JNum q => Ok (int_of_float q)
  | JStr s =>
      let '(sign, cs) := read_sign (String.list_ascii_of_string s) in
      let '(ip, n_int, rest) := read_digits 0 0 cs in
      match rest with
      | [] => if bool_decide (n_int = 0%nat) then Raise ValueError else Ok (sign * ip)
      | _ => Raise ValueError
      end
  | _ => Raise TypeError
  end.

(** [1e6], the USDC decimal scale. *)
Definition scale_1e6 : Qc := Qc_of_Z 1000000.

(** ** [sorted(xs, key=..., reverse=True)] *)

(** Python's sort is stable, also under [reverse=True]: among equal keys the
    input order is kept.  Insertion from the right places an element before
    the first one whose key does not exceed its own. *)
Section Sorted.
Context {A : Type} (key : A → Qc).

Fixpoint insert_desc (x : A) (l : list A) : list A :=
  match l with
  | [] => [x]
  | y :: l' =>
      if bool_decide (key y ≤ key x)%Qc then x :: y :: l'
      else y :: insert_desc x l'
  end.

Definition sorted_reverse (l : list A) : list A := foldr insert_desc [] l.


End Sorted.

(** ** Loops and effects *)

(** A [for] loop whose body may raise: the first exception ends the loop and
    the state built so far is lost to the caller. *)
Fixpoint for_each {A S : Type} (body : A → S → result S) (xs : list A) (s : S) : result S :=
  match xs with
  | [] => Ok s
  | x :: xs' =>
      match body x s with
      | Ok s' => for_each body xs' s'
      | Raise e => Raise e
      end
  end.

(** Code that also writes to the outside world (console, HTTP) returns the
    trace of what it did, in order; the trace survives an exception. *)
Definition io (E A : Type) : Type := list E * result A.

Global Instance io_ret {E} : MRet (io E) := λ A a, ([], Ok a).
Global Instance io_bind {E} : MBind (io E) := λ A B f m,
  match m with
  | (t, Ok a) => let r := f a in (t ++ r.1, r.2)
  | (t, Raise e) => (t, Raise e)
  end.

(** [try: m except Exception as e: handler e] *)
Definition io_try {E A} (m : io E A) (handler : exn → io E A) : io E A :=
  match m with
  | (t, Ok a) => (t, Ok a)
  | (t, Raise e) => let r := handler e in (t ++ r.1, r.2)
  end.

Definition emit {E} (ev : E) : io E unit := ([ev], Ok ()).
Definition lift {E A} (r : result A) : io E A := ([], r).

Global Arguments io_bind : simpl never.
Global Arguments io_ret : simpl never.
Global Arguments io_try : simpl never.
Global Arguments emit : simpl never.
Global Arguments lift : simpl never.

(** A [for] loop with effects in its body. *)
Fixpoint io_for_each {E A S : Type} (body : A → S → io E S) (xs : list A) (s : S) : io E S :=
  match xs with
  | [] => mret s
  | x :: xs' => s' ← body x s; io_for_each body xs' s'
  end.

(** * main.py *)

Module Main.

Definition WHALE_THRESHOLD_USD : Qc := Qc_of_Z 50000.

(** One entry of [whales]: the dictionary built at lines 53-58. *)
Record whale := Whale {
  wallet : json;
  amount_usd : Qc;
  market : string;
  timestamp : json;
}.

(** [client.execute(QUERY, variable_values=params)]: the upstream's answer
    for the given variables, or the transport's exception. *)
Definition client : Type := gmap string json → result json.

(** Body of the loop at lines 50-58. *)
Definition collect_whale (trade : json) (whales : list whale) : result (list whale) :=
  raw ← getitem trade "amount";
  amount ← float raw;
  if bool_decide (WHALE_THRESHOLD_USD ≤ amount)%Qc then
    account ← getitem trade "account";
    m ← getitem trade "market";
    question ← getitem m "question";
    label ← slice_then_append 50 "..." question;
    ts ← getitem trade "timestamp";
    Ok (whales ++ [Whale account amount label ts])
  else Ok whales.

Definition fetch_whale_trades (market_id : string) (since_ts : Z) (execute : client)
    : result (list whale) :=
  let params : gmap string json := {[ "timestamp" := JNum (Qc_of_Z since_ts) ]} in
  response ← execute params;
  trades ← getitem response "trades";
  items ← iter trades;
  whales ← for_each collect_whale items [];
  Ok (take 10 (sorted_reverse amount_usd whales)).

(** A table row, cell by cell, before [rich] renders it. *)
Record row := Row {
  cell_wallet : string;
  cell_amount : Qc;
  cell_market : string;
  cell_time : json;
}.

(** What [update_display] writes to the console. *)
Inductive console_line :=
  | NewWhale (amount : Qc) (market : string).

(** Body of the loop at lines 72-78. *)
Definition show_whale (t : whale) (table : list row) : io console_line (list row) :=
  w ← lift (slice_then_append 10 "..." (wallet t));
  let table' := table ++ [Row w (amount_usd t) (market t) (timestamp t)] in
  if bool_decide (Qc_of_Z 100000 < amount_usd t)%Qc then
    _ ← emit (NewWhale (amount_usd t) (market t)); mret table'
  else mret table'.

(** [update_display], the closure of [track_whales]. *)
Definition update_display (market_filter : string) (since : Z) (execute : client)
    : io console_line (list row) :=
  trades ← lift (fetch_whale_trades market_filter since execute);
  io_for_each show_whale trades [].

(** Default of [since]: [int((time.time() - 3600) * 1000)], with [now] the
    value of [time.time()]. *)
Definition default_since (now : Qc) : Z :=
  int_of_float ((now - Qc_of_Z 3600) * Qc_of_Z 1000)%Qc.

(** *** Observations used in the statements *)


End Main.

(** * goldsky.py *)

Module Goldsky.

Definition WHALE_THRESHOLD_USD : Qc := Qc_of_Z 50000.
Definition ALERT_THRESHOLD_USD : Qc := Qc_of_Z 100000.

(** The Telegram credentials are the part of the configuration the user is
    told to replace (lines 20-21). *)
Record config := Config {
  TELEGRAM_TOKEN : string;
  TELEGRAM_CHAT_ID : string;
}.


Inductive query := TRADE_QUERY | MARKETS_QUERY | intro_query.

(** A decoded [LogInvestmentChanged] event, as [web3] hands it over. *)
Record log_event := LogEvent {
  ev_buyer : string;
  ev_market : string;
  ev_investmentAmount : Z;
  ev_blockNumber : Z;
}.

(** The text of an alert, [f"Whale Alert: ${size_usd:,.0f} on {market}"],
    by the two values it interpolates. *)
Record alert := Alert {
  alert_size : Qc;
  alert_market : string;
}.

(** The outside world of one run: what each call to an upstream answers. *)
Record world := World {
  (** [client.execute(query, variable_values=...)] *)
  execute : query → gmap string json → result json;
  (** [w3.eth.contract(address=FPMM_FACTORY_ADDRESS, abi=factory_abi)] *)
  contract : result unit;
  (** [w3.eth.block_number] *)
  block_number : result Z;
  (** [factory.events.LogInvestmentChanged.get_logs(fromBlock, toBlock)] *)
  get_logs : Z → Z → result (list log_event);
  (** [w3.eth.get_block(n)['timestamp']] *)
  get_block_timestamp : Z → result Z;
  (** [requests.post(url, data={'chat_id': ..., 'text': ...})] *)
  post : string → string → alert → result unit;
}.

Inductive console_line :=
  | SubgraphFetchFailed (e : exn)
  | AvailableQueryFields (names : list string)
  | RpcFallbackLimited (e : exn)
  | WhaleAlert (a : alert)
  | TopMarkets (questions : list string).

(** The observable actions, in the order they happen. *)
Inductive event :=
  | Executed (q : query) (variables : gmap string json)
  | RpcQueried
  | Posted (url chat_id : string) (a : alert)
  | Printed (line : console_line).

(** A call whose outcome the world decides, recorded in the trace. *)
Definition call {A} (ev : event) (outcome : result A) : io event A := ([ev], outcome).

(** One entry of [whale_events] (lines 108-113). *)
Record whale_event := WhaleEvent {
  we_wallet : string;
  we_size_usd : Qc;
  we_market : string;
  we_timestamp : Z;
}.

Definition empty_batch : json := JObj {[ "fixedProductMarketMakers" := JArr [] ]}.

(** Body of the loop at lines 104-113. *)
Definition collect_event (w : world) (ev : log_event) (whale_events : list whale_event)
    : result (list whale_event) :=
  let amount_raw := ev_investmentAmount ev in
  let size_usd := (Qc_of_Z amount_raw / scale_1e6)%Qc in
  if bool_decide (WHALE_THRESHOLD_USD ≤ size_usd)%Qc then
    ts ← get_block_timestamp w (ev_blockNumber ev);
    Ok (whale_events ++
        [WhaleEvent (ev_buyer ev) size_usd
                    ("Market " +:+ str_take 10 (ev_market ev) +:+ "...") ts])
  else Ok whale_events.

(** The dictionary built per event at lines 114-115. *)
Definition event_record (e : whale_event) : json :=
  JObj {[ "buyer" := JObj {[ "id" := JStr (we_wallet e) ]};
          "investmentAmount" := JStr (pretty (int_of_float (we_size_usd e * scale_1e6)%Qc));
          "market" := JObj {[ "question" := JStr (we_market e); "volume" := JStr "0" ]};
          "timestamp" := JStr (pretty (we_timestamp e)) ]}.

(** The [try] block of [rpc_fallback_trades] (lines 82-116). *)
Definition rpc_scan (w : world) : result json :=
  _ ← contract w;
  latest_block ← block_number w;
  let from_block := Z.max 0 (latest_block - 1000) in
  events ← get_logs w from_block latest_block;
  whale_events ← for_each (collect_event w) events [];
  Ok (JObj {[ "fixedProductMarketMakers" := JArr (event_record <$> whale_events) ]}).

Definition rpc_fallback_trades (w : world) : io event json :=
  io_try (call RpcQueried (rpc_scan w))
         (λ e, _ ← emit (Printed (RpcFallbackLimited e)); mret empty_batch).

Definition as_str (v : json) : result string :=
  match v with
  | JStr s => Ok s
  | _ => Raise TypeError
  end.

(** [[f(x) for x in xs]] *)
Fixpoint comprehension {A B} (f : A → result B) (xs : list A) : result (list B) :=
  match xs with
  | [] => Ok []
  | x :: xs' => y ← f x; ys ← comprehension f xs'; Ok (y :: ys)
  end.

(** Lines 72-74: the introspection probe and the line it prints. *)
Definition probe (w : world) : io event unit :=
  intro ← call (Executed intro_query ∅) (execute w intro_query ∅);
  shown ← lift (schema ← getitem intro "__schema";
                query_type ← getitem schema "queryType";
                fields_json ← getitem query_type "fields";
                items ← iter fields_json;
                fields ← comprehension (λ f, getitem f "name") items;
                comprehension as_str (take 10 fields));
  emit (Printed (AvailableQueryFields shown)).

Definition fetch_from_subgraph (w : world) (q : query) (variables : option (gmap string json))
    : io event json :=
  let vars := default ∅ variables in
  io_try (call (Executed q vars) (execute w q vars))
         (λ e,
            _ ← emit (Printed (SubgraphFetchFailed e));
            _ ← io_try (probe w) (λ _, mret ());
            rpc_fallback_trades w).

(** [send_telegram_alert] *)
Definition send_telegram_alert (cfg : config) (w : world) (message : alert) : io event unit :=
  if bool_decide (TELEGRAM_TOKEN cfg ≠ "") && bool_decide (TELEGRAM_TOKEN cfg ≠ "your_bot_token")
  then
    let url := "https://api.telegram.org/bot" +:+ TELEGRAM_TOKEN cfg +:+ "/sendMessage" in
    call (Posted url (TELEGRAM_CHAT_ID cfg) message) (post w url (TELEGRAM_CHAT_ID cfg) message)
  else mret ().

(** One entry of [whale_trades] (lines 148-153). *)
Record whale := Whale {
  wallet : json;
  size_usd : Qc;
  market : string;
  timestamp : json;
}.

(** Body of the loop at lines 146-153. *)
Definition normalize_trade (trade : json) (whale_trades : list whale) : result (list whale) :=
  raw ← getitem trade "investmentAmount";
  amount ← float raw;
  let size := (amount / scale_1e6)%Qc in
  buyer ← getitem trade "buyer";
  buyer_id ← getitem buyer "id";
  m ← getitem trade "market";
  question ← getitem m "question";
  label ← slice_then_append 50 "..." question;
  ts ← getitem trade "timestamp";
  Ok (whale_trades ++ [Whale buyer_id size label ts]).

(** A table row, cell by cell, before [rich] renders it; the last
    constructor is the placeholder of line 181. *)
Inductive row :=
  | TradeRow (wallet : string) (amount : Qc) (market : string) (time : json)
  | NoRecentWhales.

(** The loop at lines 162-178: [displayed] counts the rows added and the
    loop breaks at ten. *)
Fixpoint display_loop (cfg : config) (w : world) (ts : list whale)
    (displayed : nat) (table : list row) : io event (list row) :=
  match ts with
  | [] => mret table
  | t :: ts' =>
      if bool_decide (10 ≤ displayed)%nat then mret table
      else
        cell ← lift (slice_then_append 10 "..." (wallet t));
        let table' := table ++ [TradeRow cell (size_usd t) (market t) (timestamp t)] in
        if bool_decide (ALERT_THRESHOLD_USD ≤ size_usd t)%Qc then
          let a := Alert (size_usd t) (market t) in
          _ ← send_telegram_alert cfg w a;
          _ ← emit (Printed (WhaleAlert a));
          display_loop cfg w ts' (S displayed) table'
        else display_loop cfg w ts' (S displayed) table'
  end.

(** [str(x)] for a float with an integral value below [1e16]. *)
Definition str_of_integral_float (q : Qc) : string := pretty (int_of_float q) +:+ ".0".

(** Lines 145-187: from the fetched batch to the table. *)
Definition render (cfg : config) (w : world) (top_markets trades_list : json)
    : io event (list row) :=
  items ← lift (iter trades_list);
  whale_trades ← lift (for_each normalize_trade items []);
  table ← display_loop cfg w (sorted_reverse size_usd whale_trades) 0 [];
  let table := if bool_decide (whale_trades = []) then table ++ [NoRecentWhales] else table in
  if truthy top_markets then
    questions ← lift (ms ← iter top_markets;
                      comprehension (λ m, q ← getitem m "question";
                                          slice_then_append 30 "" q) ms);
    _ ← emit (Printed (TopMarkets questions));
    mret table
  else mret table.

(** [update_display], the closure of [track_whales]. *)
Definition update_display (cfg : config) (w : world) (since : Z) : io event (list row) :=
  markets_result ← fetch_from_subgraph w MARKETS_QUERY None;
  top_markets ← lift (dict_get markets_result "markets" (JArr []));
  let amount_threshold := (WHALE_THRESHOLD_USD * scale_1e6)%Qc in
  trades_result ← fetch_from_subgraph w TRADE_QUERY
    (Some {[ "timestamp" := JNum (Qc_of_Z since);
             "amount" := JStr (str_of_integral_float amount_threshold) ]});
  trades_list ← lift (dict_get trades_result "fixedProductMarketMakers" (JArr []));
  render cfg w top_markets trades_list.

(** Default of [since]: [int((time.time() - 86400) * 1000)], with [now] the
    value of [time.time()]. *)
Definition default_since (now : Qc) : Z :=
  int_of_float ((now - Qc_of_Z 86400) * Qc_of_Z 1000)%Qc.

(** *** Observations used in the statements *)



(** The alerts handed to [requests.post] in a trace, in order. *)
Definition posted (tr : list event) : list alert :=
  omap (λ ev, match ev with
              | Posted _ _ a => Some a
              | _ => None
              end) tr.









End Goldsky.

(** * polymarket.py *)

Module Polymarket.

Definition THRESHOLD_USD : Qc := Qc_of_Z 7500.

(** What a Python [set] accepts as a member: the hashable JSON scalars. *)
Inductive hashable :=
  | HNull
  | HNum (q : Qc)
  | HStr (s : string).

Global Instance hashable_eq_dec : EqDecision hashable.
Proof. solve_decision. Defined.

Global Instance hashable_countable : Countable hashable.
Proof.
  refine (inj_countable'
    (λ h, match h with
          | HNull => inl ()
          | HNum q => inr (inl q)
          | HStr s => inr (inr s)
          end)
    (λ x, match x with
          | inl _ => HNull
          | inr (inl q) => HNum q
          | inr (inr s) => HStr s
          end) _).
  by intros [].
Defined.

(** Hashing a value, as [tx in seen] and [seen.add(tx)] do first: lists and
    dictionaries are unhashable. *)
Definition hash_key (v : json) : result hashable :=
  match v with
  | JNull => Ok HNull
  | JNum q => Ok (HNum q)
  | JStr s => Ok (HStr s)
  | JArr _ | JObj _ => Raise TypeError
  end.

(** [v[:n]] *)
Definition slice_prefix (n : nat) (v : json) : result json :=
  match v with
  | JStr s => Ok (JStr (str_take n s))
  | JArr l => Ok (JArr (take n l))
  | _ => Raise TypeError
  end.

Definition upper_ascii (c : ascii) : ascii :=
  let n := N_of_ascii c in
  if bool_decide (97 ≤ n ≤ 122)%N then ascii_of_N (n - 32) else c.

(** [s.upper()], on ASCII letters. *)
Fixpoint upper (s : string) : string :=
  match s with
  | EmptyString => EmptyString
  | String c s' => String (upper_ascii c) (upper s')
  end.

(** [format_time(ts)]: [datetime.fromtimestamp] accepts the years 1 to 9999
    and raises outside them; the formatted text is determined by [ts]. *)
Definition format_time (ts : Z) : result Z :=
  if bool_decide (-62135596800 ≤ ts ≤ 253402300799) then Ok ts else Raise ValueError.

(** The panel [print_trade] renders, by the values it interpolates. *)
Record panel := Panel {
  p_title : json;
  p_side : string;
  p_border : string;
  p_usd_value : Qc;
  p_price : Qc;
  p_size : Qc;
  p_outcome : json;
  p_maker : json;
  p_taker : json;
  p_tx : json;
  p_time : Z;
}.

Inductive event :=
  | Banner
  | Fetched (limit : Z)
  | PrintedTrade (t : json) (p : panel).

(** [float(t["price"]) * float(t["size"])], computed by [main] and again by
    [print_trade]. *)
Definition usd_value (t : json) : result Qc :=
  price_raw ← getitem t "price";
  price ← float price_raw;
  size_raw ← getitem t "size";
  size ← float size_raw;
  Ok (price * size)%Qc.

Definition print_trade (t : json) : io event unit :=
  p ← lift (usd ← usd_value t;
            side_raw ← getitem t "side";
            side ← match side_raw with
                   | JStr s => Ok (upper s)
                   | _ => Raise AttributeError
                   end;
            let color := if bool_decide (side = "BUY") then "green" else "red" in
            title ← getitem t "title";
            price_raw ← getitem t "price";
            price ← float price_raw;
            size_raw ← getitem t "size";
            size ← float size_raw;
            outcome ← dict_get t "outcome" (JStr "?");
            maker_raw ← dict_get t "maker" (JStr "?");
            maker ← slice_prefix 10 maker_raw;
            taker_raw ← dict_get t "taker" (JStr "?");
            taker ← slice_prefix 10 taker_raw;
            tx_raw ← getitem t "transactionHash";
            tx ← slice_prefix 16 tx_raw;
            ts_raw ← getitem t "timestamp";
            ts ← int ts_raw;
            time ← format_time ts;
            Ok (Panel title side color usd price size outcome maker taker tx time));
  emit (PrintedTrade t p).

(** The REST upstream: the answer of [fetch_trades(limit)] in the given
    poll cycle ([requests.get], [raise_for_status], [resp.json()]). *)
Definition rest_api : Type := nat → Z → result json.

Definition fetch_trades (api : rest_api) (cycle : nat) (limit : Z) : io event json :=
  ([Fetched limit], api cycle limit).

(** Body of the [for] loop of [main] (lines 47-56). *)
Definition process_trade (t : json) (seen : gset hashable) : io event (gset hashable) :=
  tx ← lift (getitem t "transactionHash");
  k ← lift (hash_key tx);
  if bool_decide (k ∈ seen) then mret seen
  else
    let seen' := {[ k ]} ∪ seen in
    usd ← lift (usd_value t);
    if bool_decide (THRESHOLD_USD ≤ usd)%Qc then
      _ ← print_trade t; mret seen'
    else mret seen'.

(** One iteration of [while True] (lines 45-58, the sleep apart). *)
Definition poll_cycle (api : rest_api) (cycle : nat) (seen : gset hashable)
    : io event (gset hashable) :=
  trades ← fetch_trades api cycle 100;
  items ← lift (iter trades);
  io_for_each process_trade items seen.

(** [n] iterations of [while True], starting at cycle number [cycle]. *)
Fixpoint poll (api : rest_api) (cycle n : nat) (seen : gset hashable)
    : io event (gset hashable) :=
  match n with
  | O => mret seen
  | S n' => seen' ← poll_cycle api cycle seen; poll api (S cycle) n' seen'
  end.

(** [main], cut after [n] poll cycles: the loop itself never ends. *)
Definition main (api : rest_api) (n : nat) : io event (gset hashable) :=
  _ ← emit Banner; poll api 0 n ∅.

(** The trades [print_trade] has shown in a trace, oldest first. *)
Definition printed (tr : list event) : list json :=
  omap (λ ev, match ev with
              | PrintedTrade t _ => Some t
              | _ => None
              end) tr.

(** The identifier of a raw trade: its [transactionHash], as the [seen] set
    stores it. *)
Definition trade_id (t : json) : result hashable :=
  tx ← getitem t "transactionHash"; hash_key tx.

Definition printed_ids (tr : list event) : list (result hashable) :=
  trade_id <$> printed tr.

(** *** Observations used in the statements *)

(** No identifier is printed twice in the trace, and none of those printed
    was in the [seen] set the run started from. *)
Definition fresh (seen : gset hashable) (tr : list event) : Prop :=
  NoDup (printed_ids tr) ∧
  ∀ id, id ∈ printed_ids tr → ∃ k, id = Ok k ∧ k ∉ seen.


(** What every stretch of the polling loop guarantees when started with
    [seen]: its prints are fresh, and if it completes, the set has only
    grown and holds every identifier printed. *)
Definition dedups (seen : gset hashable) (m : io event (gset hashable)) : Prop :=
  fresh seen m.1 ∧
  ∀ seen', m.2 = Ok seen' →
    seen ⊆ seen' ∧ ∀ k, Ok k ∈ printed_ids m.1 → k ∈ seen'.

End Polymarket.

(** * Sample upstream answers *)

Module Samples.





(** A record of the REST trades feed. *)
Definition rest_trade (tx price size : string) : json :=
  JObj {[ "transactionHash" := JStr tx;
          "price" := JStr price;
          "size" := JStr size;
          "side" := JStr "buy";
          "title" := JStr "Will it rain tomorrow?";
          "timestamp" := JNum (Qc_of_Z 1700000000) ]}.

(** Every poll returns the same three records: a whale twice and a small
    trade. *)
Definition repeating_api : Polymarket.rest_api := λ _ _,
  Ok (JArr [rest_trade "0xabc" "0.50" "20000";
            rest_trade "0xabc" "0.50" "20000";
            rest_trade "0xdef" "0.10" "100"]).





(** Every upstream of goldsky.py is down. *)
Definition all_down_world : Goldsky.world :=
  {| Goldsky.execute := λ _ _, Raise (UpstreamError "503");
     Goldsky.contract := Raise (UpstreamError "invalid address");
     Goldsky.block_number := Raise (UpstreamError "node unreachable");
     Goldsky.get_logs := λ _ _, Raise (UpstreamError "node unreachable");
     Goldsky.get_block_timestamp := λ _, Raise (UpstreamError "node unreachable");
     Goldsky.post := λ _ _ _, Raise (UpstreamError "network unreachable") |}.


End Samples.

(** * Properties *)

(** ** The error monads *)

Lemma result_bind_Ok {A B} (m : result A) (f : A → result B) (b : B) :
  m ≫= f = Ok b ↔ ∃ a, m = Ok a ∧ f a = Ok b.
Proof.
  destruct m as [a|e]; simpl; split.
  - intros H. by exists a.
  - by intros (a' & [= <-] & H).
  - intros H. discriminate H.
  - by intros (a' & [=] & _).
Qed.

Lemma io_bind_Ok {E A B} (m : io E A) (f : A → io E B) (tr : list E) (b : B) :
  m ≫= f = (tr, Ok b) ↔
  ∃ t1 a t2, m = (t1, Ok a) ∧ f a = (t2, Ok b) ∧ tr = t1 ++ t2.
Proof.
  destruct m as [t [a|e]]; unfold mbind, io_bind; simpl; split.
  - destruct (f a) as [t2 r] eqn:Hf. simpl. intros [= <- ->]. by exists t, a, t2.
  - intros (t1 & a' & t2 & [= <- <-] & Hf & ->). by rewrite Hf.
  - intros [=].
  - by intros (t1 & a' & t2 & [=] & _).
Qed.


(** ** [sorted(..., reverse=True)] *)

Section SortedFacts.
Context {A : Type} (key : A → Qc).

Lemma insert_desc_Permutation x l : insert_desc key x l ≡ₚ x :: l.
Proof.
  induction l as [|y l IH]; simpl; [done|].
  case_bool_decide; [done|]. by rewrite IH, Permutation_swap.
Qed.

Lemma sorted_reverse_Permutation l : sorted_reverse key l ≡ₚ l.
Proof.
  induction l as [|x l IH]; simpl; [done|].
  by rewrite insert_desc_Permutation, IH.
Qed.




Lemma length_sorted_reverse l : length (sorted_reverse key l) = length l.
Proof. by rewrite sorted_reverse_Permutation. Qed.


End SortedFacts.

(** ** main.py: filter and rank *)





(** ** goldsky.py: the display loop *)








(** ** polymarket.py: the [seen] set *)

Section Dedup.
Import Polymarket.

Lemma printed_ids_app tr1 tr2 :
  printed_ids (tr1 ++ tr2) = printed_ids tr1 ++ printed_ids tr2.
Proof. unfold printed_ids, printed. by rewrite omap_app, fmap_app. Qed.

Lemma fresh_nil seen : fresh seen [].
Proof. split; [constructor|]. intros id Hid. by apply elem_of_nil in Hid. Qed.

Lemma fresh_silent seen ev tr :
  (∀ t p, ev ≠ PrintedTrade t p) → fresh seen tr → fresh seen (ev :: tr).
Proof.
  intros Hev Htr. unfold fresh, printed_ids, printed in *. simpl.
  destruct ev; try done. by destruct (Hev t p).
Qed.

Lemma dedups_ret seen : dedups seen (mret seen).
Proof. split; [apply fresh_nil|]. intros seen' [= <-]. split; [done|]. intros k Hk. by apply elem_of_nil in Hk. Qed.

Lemma dedups_raise seen tr e : fresh seen tr → dedups seen (tr, Raise e).
Proof. intros Htr. split; [done|]. intros seen' [=]. Qed.

Lemma dedups_bind seen (m : io event (gset hashable)) f :
  dedups seen m →
  (∀ seen', seen ⊆ seen' → dedups seen' (f seen')) →
  dedups seen (m ≫= f).
Proof.
  destruct m as [t1 [s1|e]]; unfold mbind, io_bind; simpl; [|done].
  intros [[Hnd1 Hfresh1] Hpost1] Hf.
  destruct (Hpost1 s1 eq_refl) as [Hsub Hin1].
  destruct (Hf s1 Hsub) as [[Hnd2 Hfresh2] Hpost2].
  destruct (f s1) as [t2 r2]; simpl in *.
  split; [split|]; simpl.
  - rewrite printed_ids_app. apply NoDup_app. split; [done|]. split; [|done].
    intros id Hid1 Hid2.
    destruct (Hfresh1 id Hid1) as (k & -> & _).
    destruct (Hfresh2 _ Hid2) as (k' & [= <-] & Hk'). by apply Hk', Hin1.
  - intros id. rewrite printed_ids_app, elem_of_app. intros [Hid|Hid]; [by apply Hfresh1|].
    destruct (Hfresh2 id Hid) as (k & -> & Hk). exists k. split; [done|].
    intros Hks. by apply Hk, Hsub.
  - intros seen' Hr. destruct (Hpost2 seen' Hr) as [Hsub2 Hin2]. split; [by etrans|].
    intros k. rewrite printed_ids_app, elem_of_app. intros [Hk|Hk]; [|by apply Hin2].
    apply Hsub2. by apply Hin1.
Qed.

(** [print_trade] either raises before printing or prints exactly [t]. *)
Lemma print_trade_trace t :
  (∃ e, print_trade t = ([], Raise e)) ∨
  (∃ p, print_trade t = ([PrintedTrade t p], Ok ()) ∧
        usd_value t = Ok (p_usd_value p)).
Proof.
  unfold print_trade, mbind at 1, io_bind, lift, emit.
  destruct (usd_value t) as [usd|e] eqn:Husd; [|left; by exists e].
  change (Ok usd ≫= ?f) with (f usd). cbv beta.
  match goal with |- context [([], ?r)] => destruct r as [p|e] eqn:Hp end;
    [|left; by exists e].
  right. exists p. split; [done|].
  repeat (apply result_bind_Ok in Hp as (? & _ & Hp)). by injection Hp as <-.
Qed.

Lemma process_trade_unfold t seen :
  process_trade t seen =
    match trade_id t with
    | Raise e => ([], Raise e)
    | Ok k =>
        if bool_decide (k ∈ seen) then ([], Ok seen)
        else
          match usd_value t with
          | Raise e => ([], Raise e)
          | Ok usd =>
              if bool_decide (THRESHOLD_USD ≤ usd)%Qc then
                ((print_trade t).1,
                 match (print_trade t).2 with
                 | Ok _ => Ok ({[ k ]} ∪ seen)
                 | Raise e => Raise e
                 end)
              else ([], Ok ({[ k ]} ∪ seen))
          end
    end.
Proof.
  unfold process_trade, trade_id, mbind, io_bind, result_bind, lift, mret, io_ret.
  destruct (getitem t "transactionHash") as [tx|e]; [|done].
  destruct (hash_key tx) as [k|e]; [|done].
  case_bool_decide; [done|].
  destruct (usd_value t) as [usd|e]; [|done].
  case_bool_decide; [|done].
  destruct (print_trade t) as [tr [[]|e]]; simpl; [|done].
  by rewrite app_nil_r.
Qed.

(** One record: at most one print, of a fresh identifier, and on completion
    the identifier is in the set. *)
Lemma process_trade_spec t seen :
  dedups seen (process_trade t seen) ∧
  ∀ seen', (process_trade t seen).2 = Ok seen' →
    ∃ k, trade_id t = Ok k ∧ k ∈ seen'.
Proof.
  rewrite process_trade_unfold.
  destruct (trade_id t) as [k|e] eqn:Hid;
    [|split; [by apply dedups_raise, fresh_nil|by intros ? [=]]].
  case_bool_decide as Hseen.
  { split; [apply dedups_ret|]. intros seen' [= <-]. eauto. }
  destruct (usd_value t) as [usd|e];
    [|split; [by apply dedups_raise, fresh_nil|by intros ? [=]]].
  assert (k ∈ ({[k]} ∪ seen : gset hashable)) as Hin by (apply elem_of_union_l, elem_of_singleton; done).
  assert (seen ⊆ ({[k]} ∪ seen : gset hashable)) as Hsub by apply union_subseteq_r.
  case_bool_decide as Husd.
  2:{ split; [|intros seen' [= <-]; eauto].
      split; [apply fresh_nil|]. intros seen' [= <-]. split; [done|].
      intros k' Hk'. by apply elem_of_nil in Hk'. }
  destruct (print_trade_trace t) as [[e ->]|[p [-> _]]]; simpl.
  { split; [by apply dedups_raise, fresh_nil|by intros ? [=]]. }
  split; [|intros seen' [= <-]; eauto].
  split; [split|]; unfold printed_ids, printed; simpl; rewrite Hid.
  - apply NoDup_singleton.
  - intros id ->%list_elem_of_singleton. eauto.
  - intros seen' [= <-]. split; [done|].
    by intros k' [= ->]%list_elem_of_singleton.
Qed.

Lemma batch_dedups items seen : dedups seen (io_for_each process_trade items seen).
Proof.
  revert seen. induction items as [|t items IH]; intros seen; simpl; [apply dedups_ret|].
  apply dedups_bind; [apply process_trade_spec|]. intros seen' _. apply IH.
Qed.

Lemma batch_marks_all items seen tr seen' :
  io_for_each process_trade items seen = (tr, Ok seen') →
  ∀ t, t ∈ items → ∃ k, trade_id t = Ok k ∧ k ∈ seen'.
Proof.
  revert seen tr. induction items as [|x items IH]; intros seen tr; simpl.
  - intros _ t Ht. by apply elem_of_nil in Ht.
  - intros (t1 & s1 & t2 & Hx & Hrest & ->)%io_bind_Ok t [->|Ht]%elem_of_cons.
    + destruct (process_trade_spec x seen) as [_ Hk].
      destruct (Hk s1) as (k & Hid & Hin); [by rewrite Hx|].
      exists k. split; [done|].
      destruct (batch_dedups items s1) as [_ Hpost].
      destruct (Hpost seen') as [Hsub _]; [by rewrite Hrest|]. by apply Hsub.
    + by eapply IH.
Qed.

Lemma poll_cycle_unfold api cycle seen :
  poll_cycle api cycle seen =
    match api cycle 100 with
    | Ok trades =>
        match iter trades with
        | Ok items =>
            (Fetched 100 :: (io_for_each process_trade items seen).1,
             (io_for_each process_trade items seen).2)
        | Raise e => ([Fetched 100], Raise e)
        end
    | Raise e => ([Fetched 100], Raise e)
    end.
Proof.
  unfold poll_cycle, fetch_trades, mbind, io_bind, lift.
  destruct (api cycle 100) as [trades|e]; [|done].
  by destruct (iter trades) as [items|e].
Qed.

Lemma poll_cycle_dedups api cycle seen : dedups seen (poll_cycle api cycle seen).
Proof.
  rewrite poll_cycle_unfold.
  destruct (api cycle 100) as [trades|e];
    [|by apply dedups_raise, fresh_silent, fresh_nil].
  destruct (iter trades) as [items|e];
    [|by apply dedups_raise, fresh_silent, fresh_nil].
  destruct (batch_dedups items seen) as [Hfresh Hpost].
  split; simpl; [by apply fresh_silent|done].
Qed.

Lemma poll_dedups api cycle n seen : dedups seen (poll api cycle n seen).
Proof.
  revert cycle seen. induction n as [|n IH]; intros cycle seen; simpl; [apply dedups_ret|].
  apply dedups_bind; [apply poll_cycle_dedups|]. intros seen' _. apply IH.
Qed.

End Dedup.

(** C2.  In polymarket.py's polling loop the lookup in [seen] and the
    insertion happen record by record, so over any number of poll cycles,
    started from any [seen] set, no trade identifier is printed twice: not
    when a batch carries it twice, and not when two cycles fetch it. *)
Theorem C2_deduplicator_emits_once :
  (∀ api cycle n seen,
     NoDup (Polymarket.printed_ids (Polymarket.poll api cycle n seen).1)) ∧
  (∀ api n, NoDup (Polymarket.printed_ids (Polymarket.main api n).1)).
Proof.
  split.
  - intros api cycle n seen. apply poll_dedups.
  - intros api n. unfold Polymarket.main, mbind, io_bind, emit. simpl.
    apply (poll_dedups api 0 n ∅).
Qed.

(** The whale that [Samples.repeating_api] returns twice per batch and in
    every cycle is printed once; the small trade never. *)
Example repeating_api_prints_once :
  Polymarket.printed_ids (Polymarket.main Samples.repeating_api 3).1
    = [Ok (Polymarket.HStr "0xabc")].
Proof. vm_compute. reflexivity. Qed.

(** C9.  The insertion into [seen] comes before the threshold test: once a
    poll cycle has completed, the identifier of every record it fetched is
    in the set, whatever the record's value, and no later cycle prints a
    record with that identifier, whatever the upstream then returns. *)
Theorem C9_seen_regardless_of_threshold :
  ∀ api cycle seen tr seen' trades items t,
    api cycle 100 = Ok trades →
    iter trades = Ok items →
    t ∈ items →
    Polymarket.poll_cycle api cycle seen = (tr, Ok seen') →
    ∃ k, Polymarket.trade_id t = Ok k ∧ k ∈ seen' ∧
      ∀ api' cycle' n,
        Ok k ∉ Polymarket.printed_ids (Polymarket.poll api' cycle' n seen').1.
Proof.
  intros api cycle seen tr seen' trades items t Hapi Hiter Ht.
  rewrite poll_cycle_unfold, Hapi, Hiter.
  destruct (io_for_each Polymarket.process_trade items seen) as [tr0 r0] eqn:Hloop.
  simpl. intros [= <- ->].
  destruct (batch_marks_all items seen tr0 seen' Hloop t Ht) as (k & Hid & Hin).
  exists k. split; [done|]. split; [done|].
  intros api' cycle' n Hprinted.
  destruct (poll_dedups api' cycle' n seen') as [[_ Hfresh] _].
  destruct (Hfresh _ Hprinted) as (k' & [= <-] & Hk'). done.
Qed.

(** The ten-dollar trade of [Samples.repeating_api] is marked seen by the
    first cycle and is never printed afterwards. *)
Lemma C9_seen_regardless_of_threshold_witness :
  Polymarket.usd_value (Samples.rest_trade "0xdef" "0.10" "100") = Ok (Qc_of_Z 10) ∧
  ∃ tr seen',
    Polymarket.poll_cycle Samples.repeating_api 0 ∅ = (tr, Ok seen') ∧
    ∃ k, Polymarket.trade_id (Samples.rest_trade "0xdef" "0.10" "100") = Ok k ∧
      k ∈ seen' ∧
      ∀ api' cycle' n,
        Ok k ∉ Polymarket.printed_ids (Polymarket.poll api' cycle' n seen').1.
Proof.
  split; [apply (f_equal Ok), Qc_is_canon; reflexivity|].
  eexists _, _.
  assert (Polymarket.poll_cycle Samples.repeating_api 0 ∅ = (_, Ok _)) as Hrun
    by (vm_compute; reflexivity).
  split; [exact Hrun|].
  eapply (C9_seen_regardless_of_threshold Samples.repeating_api 0 ∅);
    [reflexivity|reflexivity| |exact Hrun].
  do 2 apply list_elem_of_further. apply list_elem_of_here.
Defined.

(** C10.  [fetch_whale_trades] never reads [market_id]: for the same [since]
    and the same upstream, main.py's result and its display are the same for
    any two market filters. *)
Theorem C10_market_filter_ignored :
  ∀ filter1 filter2 since execute,
    Main.fetch_whale_trades filter1 since execute
      = Main.fetch_whale_trades filter2 since execute ∧
    Main.update_display filter1 since execute
      = Main.update_display filter2 since execute.
Proof. intros filter1 filter2 since execute. split; reflexivity. Qed.

(** ** goldsky.py: the source router *)

(** The secondary source never raises: when the scan fails its handler
    prints a line and answers the empty batch. *)
Lemma Goldsky_rpc_fallback_trades_unfold w :
  Goldsky.rpc_fallback_trades w =
    match Goldsky.rpc_scan w with
    | Ok batch => ([Goldsky.RpcQueried], Ok batch)
    | Raise e =>
        ([Goldsky.RpcQueried; Goldsky.Printed (Goldsky.RpcFallbackLimited e)],
         Ok Goldsky.empty_batch)
    end.
Proof.
  unfold Goldsky.rpc_fallback_trades, Goldsky.call, io_try.
  by destruct (Goldsky.rpc_scan w).
Qed.

(** A [try] whose handler is [pass] never raises and keeps the trace. *)
Lemma io_try_pass {E} (m : io E unit) : io_try m (λ _, mret ()) = (m.1, Ok ()).
Proof.
  unfold io_try, mret, io_ret. destruct m as [t [[]|e]]; simpl; [done|].
  by rewrite app_nil_r.
Qed.

(** The probe starts by querying the schema; wrapped in its [try], it never
    raises. *)
Lemma Goldsky_probe_swallowed w :
  ∃ rest,
    io_try (Goldsky.probe w) (λ _, mret ())
      = (Goldsky.Executed Goldsky.intro_query ∅ :: rest, Ok ()).
Proof.
  rewrite io_try_pass.
  unfold Goldsky.probe, Goldsky.call, mbind at 1, io_bind.
  destruct (Goldsky.execute w Goldsky.intro_query ∅) as [intro|e]; by eexists.
Qed.

(** C3.  [fetch_from_subgraph] never raises.  When the primary query raises
    [e], it prints the failure, runs the introspection probe (whose own
    failure is swallowed), then calls [rpc_fallback_trades] and returns that
    batch; if the RPC scan fails too, the batch is the empty one. *)
Theorem C3_router_falls_back :
  (∀ w q variables, ∃ tr batch,
     Goldsky.fetch_from_subgraph w q variables = (tr, Ok batch)) ∧
  (∀ w q variables e,
     Goldsky.execute w q (default ∅ variables) = Raise e →
     ∃ probe_trace rpc_trace batch,
       Goldsky.rpc_fallback_trades w = (rpc_trace, Ok batch) ∧
       Goldsky.fetch_from_subgraph w q variables =
         (Goldsky.Executed q (default ∅ variables)
            :: Goldsky.Printed (Goldsky.SubgraphFetchFailed e)
            :: Goldsky.Executed Goldsky.intro_query ∅
            :: probe_trace ++ rpc_trace,
          Ok batch) ∧
       (∀ e', Goldsky.rpc_scan w = Raise e' → batch = Goldsky.empty_batch)).
Proof.
  assert (∀ w q variables e,
     Goldsky.execute w q (default ∅ variables) = Raise e →
     ∃ probe_trace rpc_trace batch,
       Goldsky.rpc_fallback_trades w = (rpc_trace, Ok batch) ∧
       Goldsky.fetch_from_subgraph w q variables =
         (Goldsky.Executed q (default ∅ variables)
            :: Goldsky.Printed (Goldsky.SubgraphFetchFailed e)
            :: Goldsky.Executed Goldsky.intro_query ∅
            :: probe_trace ++ rpc_trace,
          Ok batch) ∧
       (∀ e', Goldsky.rpc_scan w = Raise e' → batch = Goldsky.empty_batch)) as Hfallback.
  { intros w q variables e Hprimary.
    destruct (Goldsky_probe_swallowed w) as [probe_trace Hprobe].
    unfold Goldsky.fetch_from_subgraph, Goldsky.call, io_try at 1.
    rewrite Hprimary. unfold mbind, io_bind, emit. rewrite Hprobe.
    rewrite Goldsky_rpc_fallback_trades_unfold.
    destruct (Goldsky.rpc_scan w) as [batch|e'] eqn:Hscan; simpl.
    - exists probe_trace, [Goldsky.RpcQueried], batch. by repeat split.
    - eexists probe_trace, _, Goldsky.empty_batch. by repeat split. }
  split; [|exact Hfallback].
  intros w q variables.
  destruct (Goldsky.execute w q (default ∅ variables)) as [batch|e] eqn:Hprimary.
  - unfold Goldsky.fetch_from_subgraph, Goldsky.call, io_try. rewrite Hprimary.
    by eexists _, _.
  - destruct (Hfallback w q variables e Hprimary) as (? & ? & batch & _ & -> & _).
    by eexists _, _.
Qed.

(** With every upstream down the router still answers. *)
Lemma C3_router_falls_back_witness :
  ∃ probe_trace rpc_trace batch,
    Goldsky.rpc_fallback_trades Samples.all_down_world = (rpc_trace, Ok batch) ∧
    Goldsky.fetch_from_subgraph Samples.all_down_world Goldsky.TRADE_QUERY None =
      (Goldsky.Executed Goldsky.TRADE_QUERY ∅
         :: Goldsky.Printed (Goldsky.SubgraphFetchFailed (UpstreamError "503"))
         :: Goldsky.Executed Goldsky.intro_query ∅
         :: probe_trace ++ rpc_trace,
       Ok batch) ∧
    (∀ e', Goldsky.rpc_scan Samples.all_down_world = Raise e' →
           batch = Goldsky.empty_batch).
Proof.
  apply (proj2 C3_router_falls_back Samples.all_down_world Goldsky.TRADE_QUERY None
           (UpstreamError "503")).
  reflexivity.
Defined.

(** ** Normalization *)













(** ** Records with missing fields *)







(** ** goldsky.py: alerts *)

Lemma Goldsky_posted_app tr1 tr2 :
  Goldsky.posted (tr1 ++ tr2) = Goldsky.posted tr1 ++ Goldsky.posted tr2.
Proof. unfold Goldsky.posted. apply omap_app. Qed.







(** ** The lookback parameter *)











